(** * compi: the Sphinx configuration module [docs/source/conf.py]

    The repository's only source file is a Python module that Sphinx executes
    once to obtain its configuration.  The module is a straight-line sequence
    of thirteen statements: twelve assignments of literals to module-level
    names and one [import sphinx_rtd_theme].

    The development below embeds that module in a small state-and-exception
    monad over the interpreter state the statements touch (the module's
    globals, [sys.modules] and the importable packages, whose top-level code
    runs when they are first imported), and proves the properties of the
    configuration it produces. *)

From Stdlib Require Import ZArith String Ascii List.
From stdpp Require Import gmap strings list fin_maps.
Import ListNotations.

Set Warnings "-register-all".

Local Open Scope string_scope.
Local Open Scope list_scope.

(** ** A fragment of Python: values, interpreter state, statements *)

Module Py.

(** A module object, as [import] binds it.  Two imports of the same name in
    one interpreter give the same object (it is cached in [sys.modules]). *)
Record module_obj := ModuleObj { mod_name : string; mod_file : string }.

(** The values the configuration can hold.  [bool] and [int] are kept apart
    ([type(True) is bool]); a dict is its items in insertion order. *)
Inductive value :=
| VStr (s : string)
| VBool (b : bool)
| VInt (n : Z)
| VList (items : list value)
| VDict (items : list (string * value))
| VModule (m : module_obj).

(** Exceptions that executing the module can raise. *)
Inductive exn :=
| ModuleNotFoundError (name : string)
| RaisedByImport (exc_type : string) (message : string).

Inductive result (A : Type) :=
| Ok (a : A)
| Raise (e : exn).
Arguments Ok {A} a.
Arguments Raise {A} e.

(** What executing a package's top-level code does.  The code runs against
    the module cache as it is at that moment: it imports the package's own
    dependencies, which stay cached whether it then completes or raises
    part-way, so its outcome and the cache it leaves both depend on the cache
    it found. *)
Definition package_body : Type :=
  gmap string module_obj -> result module_obj * gmap string module_obj.

(** The part of the interpreter an [import] statement reads and writes:
    [sys_modules] is the cache of modules already imported, and
    [site_packages] holds, for every name a finder can locate, the top-level
    code of that package. *)
Record interp := Interp {
  sys_modules : gmap string module_obj;
  site_packages : gmap string package_body
}.

(** State while a module body runs: the interpreter and the module's
    globals. *)
Record pystate := PyState {
  st_interp : interp;
  st_globals : gmap string value
}.

(** Statements: state passing, with the state kept when an exception
    propagates. *)
Definition M (A : Type) : Type := pystate -> result A * pystate.

Definition ret {A} (a : A) : M A := fun st => (Ok a, st).

Definition bind {A B} (c : M A) (k : A -> M B) : M B :=
  fun st =>
    match c st with
    | (Ok a, st') => k a st'
    | (Raise e, st') => (Raise e, st')
    end.

(** [name = v] at module level. *)
Definition assign (name : string) (v : value) : M unit :=
  fun st =>
    (Ok tt, PyState (st_interp st) (<[name := v]> (st_globals st))).

(** What the import machinery does for [name]: the cached module if there is
    one, and then no code runs; otherwise the package's top-level code is
    run.  When it completes, the module is cached under [name] on top of
    whatever the code cached; when it raises, the exception propagates, the
    entry for [name] is removed and everything else the code cached stays.  A
    name no finder locates raises [ModuleNotFoundError]. *)
Definition import_module (name : string) (i : interp)
  : result module_obj * interp :=
  match sys_modules i !! name with
  | Some m => (Ok m, i)
  | None =>
      match site_packages i !! name with
      | None => (Raise (ModuleNotFoundError name), i)
      | Some body =>
          match body (sys_modules i) with
          | (Ok m, cache) =>
              (Ok m, Interp (<[name := m]> cache) (site_packages i))
          | (Raise e, cache) =>
              (Raise e, Interp (delete name cache) (site_packages i))
          end
      end
  end.

(** [import name] at module level: import, then bind [name] to the module. *)
Definition import_ (name : string) : M unit :=
  fun st =>
    match import_module name (st_interp st) with
    | (Ok m, i') => (Ok tt, PyState i' (<[name := VModule m]> (st_globals st)))
    | (Raise e, i') => (Raise e, PyState i' (st_globals st))
    end.

(** A module body is its statements run in order; the first exception stops
    it. *)
Fixpoint exec_stmts (body : list (M unit)) : M unit :=
  match body with
  | [] => ret tt
  | s :: rest => bind s (fun _ => exec_stmts rest)
  end.

(** [d[key] = v] on a dict: an existing key keeps its position. *)
Fixpoint dict_setitem (key : string) (v : value)
    (items : list (string * value)) : list (string * value) :=
  match items with
  | [] => [(key, v)]
  | (k, w) :: rest =>
      if decide (k = key) then (k, v) :: rest
      else (k, w) :: dict_setitem key v rest
  end.

(** A dict display [{k1: v1, ..., kn: vn}] inserts its items left to
    right. *)
Definition dict_display (items : list (string * value)) : value :=
  VDict (fold_left (fun d kv => dict_setitem kv.1 kv.2 d) items []).

(** [d.get(key)]; [None] also when [d] is not a dict. *)
Fixpoint assoc_get (key : string) (items : list (string * value))
  : option value :=
  match items with
  | [] => None
  | (k, w) :: rest => if decide (k = key) then Some w else assoc_get key rest
  end.

Definition dict_get (d : value) (key : string) : option value :=
  match d with
  | VDict items => assoc_get key items
  | _ => None
  end.

End Py.
Import Py.

(** ** The module [conf.py] *)

(** The right-hand sides, under the names the source binds them to. *)

Definition project : value := VStr "compi".
Definition copyright : value := VStr "2025, cmelnu".
Definition author : value := VStr "cmelnu".

Definition extensions : value := VList [].

Definition templates_path : value := VList [VStr "_templates"].
Definition exclude_patterns : value := VList [].

Definition html_theme : value := VStr "sphinx_rtd_theme".
Definition html_theme_options : value :=
  dict_display
    [ ("navigation_depth", VInt 5);
      ("collapse_navigation", VBool false);
      ("sticky_navigation", VBool true);
      ("includehidden", VBool true);
      ("titles_only", VBool false);
      ("style_nav_header_background", VStr "#2980B9") ].

Definition html_static_path : value := VList [VStr "_static"].
Definition html_css_files : value := VList [VStr "custom.css"].

Definition html_context : value :=
  dict_display
    [ ("display_github", VBool true);
      ("github_user", VStr "cmelnu");
      ("github_repo", VStr "compi");
      ("github_version", VStr "main");
      ("conf_py_path", VStr "/docs/source/") ].

Definition pygments_style : value := VStr "monokai".

(** The statements of the module, in source order. *)
Definition conf_py_stmts : list (M unit) :=
  [ assign "project" project;
    assign "copyright" copyright;
    assign "author" author;
    assign "extensions" extensions;
    assign "templates_path" templates_path;
    assign "exclude_patterns" exclude_patterns;
    import_ "sphinx_rtd_theme";
    assign "html_theme" html_theme;
    assign "html_theme_options" html_theme_options;
    assign "html_static_path" html_static_path;
    assign "html_css_files" html_css_files;
    assign "html_context" html_context;
    assign "pygments_style" pygments_style ].

Definition conf_py : M unit := exec_stmts conf_py_stmts.

(** Loading the configuration: the module body runs and the result is the
    bindings its statements made, or the exception it raised, together with
    the interpreter afterwards.  The names the interpreter and the consuming
    tool put into the globals before the body starts ([__builtins__],
    [__file__]) are not the module's and are left out here; what the body
    does to globals that already hold bindings is stated on [conf_py]
    itself. *)
Definition load (i : interp) : result (gmap string value) * interp :=
  match conf_py (PyState i ∅) with
  | (Ok _, st) => (Ok (st_globals st), st_interp st)
  | (Raise e, st) => (Raise e, st_interp st)
  end.


(** Interpreters to run the module in.  The theme package imports [sphinx]
    when its top-level code runs, so a first import of the theme caches
    [sphinx] too. *)
Definition rtd_theme : module_obj :=
  ModuleObj "sphinx_rtd_theme" "site-packages/sphinx_rtd_theme/__init__.py".

Definition sphinx_module : module_obj :=
  ModuleObj "sphinx" "site-packages/sphinx/__init__.py".

Definition rtd_theme_body : package_body :=
  fun cache => (Ok rtd_theme, <["sphinx" := sphinx_module]> cache).

(** A theme package that imports [sphinx] and then raises. *)
Definition broken_theme_body : package_body :=
  fun cache =>
    (Raise (RaisedByImport "ImportError" "cannot import name"),
     <["sphinx" := sphinx_module]> cache).

(** The theme is installed and not yet imported. *)
Definition interp_with_theme : interp :=
  Interp ∅ {[ "sphinx_rtd_theme" := rtd_theme_body ]}.

(** Nothing is installed. *)
Definition interp_bare : interp := Interp ∅ ∅.

(** The interpreter after a load in [interp_with_theme]: the theme and the
    [sphinx] it imported are now in [sys.modules]. *)
Definition interp_theme_cached : interp :=
  Interp {[ "sphinx_rtd_theme" := rtd_theme; "sphinx" := sphinx_module ]}
         {[ "sphinx_rtd_theme" := rtd_theme_body ]}.

(** The installed theme package raises when run. *)
Definition interp_broken_theme : interp :=
  Interp ∅ {[ "sphinx_rtd_theme" := broken_theme_body ]}.




(** The namespace the module leaves when its import yields module [m]: the
    globals after running the body in an interpreter that has [m] cached. *)
Definition conf_globals (m : module_obj) : gmap string value :=
  st_globals
    (conf_py (PyState (Interp {[ "sphinx_rtd_theme" := m ]} ∅) ∅)).2.

(** ** The schema of the consuming tool (spec section 6)

    These definitions follow the words of the specification, not the source:
    they say what type each recognized key is documented to have. *)

Inductive scalar_ty := TString | TBool | TInt.

Inductive ty :=
| TScalar (t : scalar_ty)
| TListOfString
| TMapping (alts : list scalar_ty) (keys : list (string * scalar_ty)).

Definition has_scalar_type (t : scalar_ty) (v : value) : bool :=
  match t, v with
  | TString, VStr _ => true
  | TBool, VBool _ => true
  | TInt, VInt _ => true
  | _, _ => false
  end.

Fixpoint key_type (key : string) (keys : list (string * scalar_ty))
  : option scalar_ty :=
  match keys with
  | [] => None
  | (k, t) :: rest => if decide (k = key) then Some t else key_type key rest
  end.

(** A mapping matches when every item's key is a documented one, its value
    has the type documented for that key, and that type is one of the
    mapping's alternatives. *)
Definition has_type (t : ty) (v : value) : bool :=
  match t, v with
  | TScalar t, _ => has_scalar_type t v
  | TListOfString, VList items => forallb (has_scalar_type TString) items
  | TMapping alts keys, VDict items =>
      forallb
        (fun kv =>
           existsb (fun a => has_scalar_type a kv.2) alts
           && match key_type kv.1 keys with
              | Some a => has_scalar_type a kv.2
              | None => false
              end)
        items
  | _, _ => false
  end.

Definition config_schema : list (string * ty) :=
  [ ("project", TScalar TString);
    ("copyright", TScalar TString);
    ("author", TScalar TString);
    ("extensions", TListOfString);
    ("templates_path", TListOfString);
    ("exclude_patterns", TListOfString);
    ("html_theme", TScalar TString);
    ("html_theme_options",
      TMapping [TBool; TString; TInt]
        [ ("navigation_depth", TInt);
          ("collapse_navigation", TBool);
          ("sticky_navigation", TBool);
          ("includehidden", TBool);
          ("titles_only", TBool);
          ("style_nav_header_background", TString) ]);
    ("html_static_path", TListOfString);
    ("html_css_files", TListOfString);
    ("html_context",
      TMapping [TBool; TString]
        [ ("display_github", TBool);
          ("github_user", TString);
          ("github_repo", TString);
          ("github_version", TString);
          ("conf_py_path", TString) ]);
    ("pygments_style", TScalar TString) ].

(** ** String shapes used by the theme *)

Definition is_hex_digit (c : ascii) : bool :=
  let n := nat_of_ascii c in
  ((48 <=? n) && (n <=? 57)
   || (65 <=? n) && (n <=? 70)
   || (97 <=? n) && (n <=? 102))%nat.

(** [#] followed by exactly six hexadecimal digits. *)
Definition is_css_hex6 (s : string) : bool :=
  match s with
  | String "#" digits =>
      (String.length digits =? 6)%nat
      && forallb is_hex_digit (list_ascii_of_string digits)
  | _ => false
  end.

Definition starts_with_slash (s : string) : bool :=
  match s with
  | String "/" _ => true
  | _ => false
  end.

Fixpoint ends_with_slash (s : string) : bool :=
  match s with
  | EmptyString => false
  | String c EmptyString => if decide (c = "/"%char) then true else false
  | String _ rest => ends_with_slash rest
  end.

(** ** The literals of the module *)


(** The bindings made by the statements that precede the import. *)
Definition globals_before_import : gmap string value :=
  st_globals (exec_stmts (take 6 conf_py_stmts) (PyState interp_bare ∅)).2.

(** ** Names and syntax of the module body *)

(** The names the module binds before its import statement, and all the names
    it binds, in source order. *)
Definition names_before_import : list string :=
  [ "project"; "copyright"; "author";
    "extensions"; "templates_path"; "exclude_patterns" ].

Definition conf_names : list string :=
  names_before_import
  ++ [ "sphinx_rtd_theme";
       "html_theme"; "html_theme_options";
       "html_static_path"; "html_css_files";
       "html_context"; "pygments_style" ].

(** The two statement forms the module uses, as syntax, so that bodies made
    of the same statements in another order can be talked about. *)
Inductive stmt :=
| Assign (name : string) (v : value)
| Import (name : string).

Definition run_stmt (s : stmt) : M unit :=
  match s with
  | Assign name v => assign name v
  | Import name => import_ name
  end.

Definition conf_py_syntax : list stmt :=
  [ Assign "project" project;
    Assign "copyright" copyright;
    Assign "author" author;
    Assign "extensions" extensions;
    Assign "templates_path" templates_path;
    Assign "exclude_patterns" exclude_patterns;
    Import "sphinx_rtd_theme";
    Assign "html_theme" html_theme;
    Assign "html_theme_options" html_theme_options;
    Assign "html_static_path" html_static_path;
    Assign "html_css_files" html_css_files;
    Assign "html_context" html_context;
    Assign "pygments_style" pygments_style ].

(** [load] for an arbitrary body: run it in fresh globals. *)
Definition load_body (body : list stmt) (i : interp)
  : result (gmap string value) * interp :=
  match exec_stmts (run_stmt <$> body) (PyState i ∅) with
  | (Ok _, st) => (Ok (st_globals st), st_interp st)
  | (Raise e, st) => (Raise e, st_interp st)
  end.

(** The name a statement binds and, given the module an import yields, the
    value it binds it to. *)
Definition stmt_name (s : stmt) : string :=
  match s with
  | Assign name _ => name
  | Import name => name
  end.

Definition stmt_binding (m : module_obj) (s : stmt) : string * value :=
  match s with
  | Assign name v => (name, v)
  | Import name => (name, VModule m)
  end.

Definition is_import (s : stmt) : bool :=
  match s with
  | Import _ => true
  | Assign _ _ => false
  end.

(** ** Basic facts about the import machinery and the load *)


(** The whole load is decided by the import: when it yields [m] the result is
    [conf_globals m], and when it raises the load raises the same exception. *)
Lemma load_cases i :
  load i =
    match import_module "sphinx_rtd_theme" i with
    | (Ok m, i') => (Ok (conf_globals m), i')
    | (Raise e, i') => (Raise e, i')
    end.
Proof.
  unfold load, conf_py, conf_py_stmts. cbn [exec_stmts].
  unfold bind, assign, import_, ret. cbn [st_interp st_globals].
  destruct (import_module "sphinx_rtd_theme" i) as [[m|e] i']; reflexivity.
Qed.

(** A load that succeeds leaves [conf_globals m] for the module [m] that the
    import produced. *)
Lemma load_ok_inv i ns i' :
  load i = (Ok ns, i') ->
  exists m, import_module "sphinx_rtd_theme" i = (Ok m, i')
            /\ ns = conf_globals m.
Proof.
  rewrite load_cases.
  destruct (import_module "sphinx_rtd_theme" i) as [[m|e] i0]; [|done].
  intros [= <- <-]. by exists m.
Qed.

(** Reduce a lookup of a literal key in the namespace of a successful load. *)
Ltac loaded_lookup H :=
  apply load_ok_inv in H as (?m & _ & ->); vm_compute.

(** ** Properties of the loaded configuration *)

(** C1: when [html_context['display_github']] is true, the values of
    [github_user], [github_repo] and [github_version] in [html_context] are
    non-empty strings. *)
Theorem display_github_needs_repo_fields i i' ns :
  load i = (Ok ns, i') ->
  exists ctx,
    ns !! "html_context" = Some ctx
    /\ (dict_get ctx "display_github" = Some (VBool true) ->
        forall key,
          key ∈ ["github_user"; "github_repo"; "github_version"] ->
          exists s, dict_get ctx key = Some (VStr s) /\ s <> "").
Proof.
  intros H. exists html_context. split.
  - loaded_lookup H. reflexivity.
  - intros _ key Hkey.
    repeat (apply elem_of_cons in Hkey as [->|Hkey]);
      [ exists "cmelnu" | exists "compi" | exists "main" | by apply elem_of_nil in Hkey ];
      (split; [reflexivity | discriminate]).
Qed.

Lemma display_github_needs_repo_fields_witness :
  load interp_with_theme = (Ok (conf_globals rtd_theme), interp_theme_cached)
  /\ exists ctx,
       conf_globals rtd_theme !! "html_context" = Some ctx
       /\ (dict_get ctx "display_github" = Some (VBool true) ->
           forall key,
             key ∈ ["github_user"; "github_repo"; "github_version"] ->
             exists s, dict_get ctx key = Some (VStr s) /\ s <> "").
Proof.
  split; [reflexivity|].
  apply (display_github_needs_repo_fields interp_with_theme interp_theme_cached).
  reflexivity.
Defined.

(** C3: [html_theme_options['navigation_depth']] is a positive integer, and
    it is 5. *)
Theorem navigation_depth_is_five i i' ns :
  load i = (Ok ns, i') ->
  exists opts n,
    ns !! "html_theme_options" = Some opts
    /\ dict_get opts "navigation_depth" = Some (VInt n)
    /\ (0 < n)%Z
    /\ n = 5%Z.
Proof.
  intros H. exists html_theme_options, 5%Z.
  split; [loaded_lookup H; reflexivity|].
  split; [reflexivity|]. split; [lia | reflexivity].
Qed.

Lemma navigation_depth_is_five_witness :
  load interp_with_theme = (Ok (conf_globals rtd_theme), interp_theme_cached)
  /\ exists opts n,
       conf_globals rtd_theme !! "html_theme_options" = Some opts
       /\ dict_get opts "navigation_depth" = Some (VInt n)
       /\ (0 < n)%Z
       /\ n = 5%Z.
Proof.
  split; [reflexivity|].
  apply (navigation_depth_is_five interp_with_theme interp_theme_cached).
  reflexivity.
Defined.

(** C7: the configuration provides the values of the example scenario:
    [project] is 'compi', [author] is 'cmelnu', [html_theme] is
    'sphinx_rtd_theme', and the theme's navigation depth is 5. *)
Theorem example_scenario_values i i' ns :
  load i = (Ok ns, i') ->
  ns !! "project" = Some (VStr "compi")
  /\ ns !! "author" = Some (VStr "cmelnu")
  /\ ns !! "html_theme" = Some (VStr "sphinx_rtd_theme")
  /\ exists opts,
       ns !! "html_theme_options" = Some opts
       /\ dict_get opts "navigation_depth" = Some (VInt 5).
Proof.
  intros H. apply load_ok_inv in H as (m & _ & ->).
  repeat split; try (vm_compute; reflexivity).
  exists html_theme_options. split; vm_compute; reflexivity.
Qed.

Lemma example_scenario_values_witness :
  load interp_with_theme = (Ok (conf_globals rtd_theme), interp_theme_cached)
  /\ conf_globals rtd_theme !! "project" = Some (VStr "compi")
  /\ conf_globals rtd_theme !! "author" = Some (VStr "cmelnu")
  /\ conf_globals rtd_theme !! "html_theme" = Some (VStr "sphinx_rtd_theme")
  /\ exists opts,
       conf_globals rtd_theme !! "html_theme_options" = Some opts
       /\ dict_get opts "navigation_depth" = Some (VInt 5).
Proof.
  split; [reflexivity|].
  apply (example_scenario_values interp_with_theme interp_theme_cached).
  reflexivity.
Defined.

(** C8: in this configuration [extensions] and [exclude_patterns] are both
    empty sequences. *)
Theorem extensions_and_excludes_empty i i' ns :
  load i = (Ok ns, i') ->
  ns !! "extensions" = Some (VList [])
  /\ ns !! "exclude_patterns" = Some (VList []).
Proof.
  intros H. apply load_ok_inv in H as (m & _ & ->).
  split; vm_compute; reflexivity.
Qed.

Lemma extensions_and_excludes_empty_witness :
  load interp_with_theme = (Ok (conf_globals rtd_theme), interp_theme_cached)
  /\ conf_globals rtd_theme !! "extensions" = Some (VList [])
  /\ conf_globals rtd_theme !! "exclude_patterns" = Some (VList []).
Proof.
  split; [reflexivity|].
  apply (extensions_and_excludes_empty interp_with_theme interp_theme_cached).
  reflexivity.
Defined.

(** C9: [html_theme_options['style_nav_header_background']] is the string
    '#2980B9', a CSS hex colour: [#] followed by exactly six hexadecimal
    digits. *)
Theorem header_background_is_hex_colour i i' ns :
  load i = (Ok ns, i') ->
  exists opts colour,
    ns !! "html_theme_options" = Some opts
    /\ dict_get opts "style_nav_header_background" = Some (VStr colour)
    /\ colour = "#2980B9"
    /\ is_css_hex6 colour = true.
Proof.
  intros H. exists html_theme_options, "#2980B9".
  split; [loaded_lookup H; reflexivity|].
  repeat split; reflexivity.
Qed.

Lemma header_background_is_hex_colour_witness :
  load interp_with_theme = (Ok (conf_globals rtd_theme), interp_theme_cached)
  /\ exists opts colour,
       conf_globals rtd_theme !! "html_theme_options" = Some opts
       /\ dict_get opts "style_nav_header_background" = Some (VStr colour)
       /\ colour = "#2980B9"
       /\ is_css_hex6 colour = true.
Proof.
  split; [reflexivity|].
  apply (header_background_is_hex_colour interp_with_theme interp_theme_cached).
  reflexivity.
Defined.

(** C10: [html_context['conf_py_path']] is the string '/docs/source/', which
    begins and ends with [/]. *)
Theorem conf_py_path_slash_delimited i i' ns :
  load i = (Ok ns, i') ->
  exists ctx path,
    ns !! "html_context" = Some ctx
    /\ dict_get ctx "conf_py_path" = Some (VStr path)
    /\ path = "/docs/source/"
    /\ starts_with_slash path = true
    /\ ends_with_slash path = true.
Proof.
  intros H. exists html_context, "/docs/source/".
  split; [loaded_lookup H; reflexivity|].
  repeat split; reflexivity.
Qed.

Lemma conf_py_path_slash_delimited_witness :
  load interp_with_theme = (Ok (conf_globals rtd_theme), interp_theme_cached)
  /\ exists ctx path,
       conf_globals rtd_theme !! "html_context" = Some ctx
       /\ dict_get ctx "conf_py_path" = Some (VStr path)
       /\ path = "/docs/source/"
       /\ starts_with_slash path = true
       /\ ends_with_slash path = true.
Proof.
  split; [reflexivity|].
  apply (conf_py_path_slash_delimited interp_with_theme interp_theme_cached).
  reflexivity.
Defined.

(** The predicates above reject near misses. *)
Example hex_colour_rejects :
  is_css_hex6 "#2980B" = false
  /\ is_css_hex6 "#2980B9F" = false
  /\ is_css_hex6 "#2980BG" = false
  /\ is_css_hex6 "2980B9" = false.
Proof. repeat split; reflexivity. Qed.

Example slash_shape_rejects :
  starts_with_slash "docs/source/" = false
  /\ ends_with_slash "/docs/source" = false
  /\ ends_with_slash "" = false.
Proof. repeat split; reflexivity. Qed.

(** A string is never accepted where a sequence of strings is documented. *)
Lemma sequence_type_rejects_string s : has_type TListOfString (VStr s) = false.
Proof. reflexivity. Qed.

(** C2: every recognized key that is present has the type the table of spec
    section 6 gives it: [project], [copyright], [author], [html_theme] and
    [pygments_style] are strings; [extensions], [templates_path],
    [exclude_patterns], [html_static_path] and [html_css_files] are sequences
    of strings, never a single string; [html_theme_options] maps strings to
    bool, string or int and [html_context] maps strings to bool or string,
    each documented key with its documented type. *)
Theorem recognized_keys_well_typed i i' ns :
  load i = (Ok ns, i') ->
  forall key t v,
    (key, t) ∈ config_schema ->
    ns !! key = Some v ->
    has_type t v = true
    /\ (t = TListOfString -> forall s, v <> VStr s).
Proof.
  intros H key t v Hin Hv.
  apply load_ok_inv in H as (m & _ & ->).
  assert (Htyped : has_type t v = true).
  { unfold config_schema in Hin.
    repeat (apply elem_of_cons in Hin as [[= -> ->]|Hin];
            [vm_compute in Hv; injection Hv as <-; reflexivity|]).
    by apply elem_of_nil in Hin. }
  split; [exact Htyped|].
  intros -> s ->. by rewrite sequence_type_rejects_string in Htyped.
Qed.

Lemma recognized_keys_well_typed_witness :
  load interp_with_theme = (Ok (conf_globals rtd_theme), interp_theme_cached)
  /\ ("html_css_files", TListOfString) ∈ config_schema
  /\ conf_globals rtd_theme !! "html_css_files" = Some html_css_files
  /\ has_type TListOfString html_css_files = true
  /\ (TListOfString = TListOfString -> forall s, html_css_files <> VStr s).
Proof.
  assert (Hload : load interp_with_theme
                  = (Ok (conf_globals rtd_theme), interp_theme_cached))
    by reflexivity.
  assert (Hin : ("html_css_files", TListOfString) ∈ config_schema)
    by (unfold config_schema; do 9 apply list_elem_of_further;
        apply list_elem_of_here).
  assert (Hv : conf_globals rtd_theme !! "html_css_files" = Some html_css_files)
    by (vm_compute; reflexivity).
  split; [exact Hload|]. split; [exact Hin|]. split; [exact Hv|].
  exact (recognized_keys_well_typed _ _ _ Hload _ _ _ Hin Hv).
Defined.

(** The mapping types tell the two dicts apart: [html_theme_options] holds an
    int, which the type of [html_context] does not admit. *)
Example context_type_rejects_theme_options :
  exists t, ("html_context", t) ∈ config_schema
            /\ has_type t html_theme_options = false.
Proof.
  eexists. split.
  - unfold config_schema. do 10 apply list_elem_of_further.
    apply list_elem_of_here.
  - reflexivity.
Qed.





(** ** Further properties of the module *)

(** The syntax above is the module: its statements are [conf_py_stmts]. *)
Lemma conf_py_syntax_stmts : run_stmt <$> conf_py_syntax = conf_py_stmts.
Proof. reflexivity. Qed.

(** [conf_globals m] as the chain of bindings the statements make. *)
Lemma conf_globals_unfold m :
  conf_globals m
  = <["pygments_style" := pygments_style]>
      (<["html_context" := html_context]>
        (<["html_css_files" := html_css_files]>
          (<["html_static_path" := html_static_path]>
            (<["html_theme_options" := html_theme_options]>
              (<["html_theme" := html_theme]>
                (<["sphinx_rtd_theme" := VModule m]>
                  (<["exclude_patterns" := exclude_patterns]>
                    (<["templates_path" := templates_path]>
                      (<["extensions" := extensions]>
                        (<["author" := author]>
                          (<["copyright" := copyright]>
                            (<["project" := project]> ∅)))))))))))).
Proof.
  unfold conf_globals, conf_py, conf_py_stmts. cbn [exec_stmts].
  unfold bind, assign, import_, import_module, ret.
  cbn [st_interp st_globals sys_modules site_packages snd].
  rewrite lookup_singleton_eq. reflexivity.
Qed.

(** The names [conf_globals m] binds are those of [conf_names]. *)
Lemma conf_globals_names m key :
  is_Some (conf_globals m !! key) <-> key ∈ conf_names.
Proof.
  rewrite <- elem_of_dom, conf_globals_unfold.
  rewrite !dom_insert_L, dom_empty_L.
  unfold conf_names, names_before_import. cbn [app].
  rewrite !elem_of_cons, elem_of_nil.
  rewrite !elem_of_union, !elem_of_singleton, elem_of_empty. tauto.
Qed.

(** [globals_before_import] as the chain of bindings of the first six
    statements. *)
Lemma globals_before_import_unfold :
  globals_before_import
  = <["exclude_patterns" := exclude_patterns]>
      (<["templates_path" := templates_path]>
        (<["extensions" := extensions]>
          (<["author" := author]>
            (<["copyright" := copyright]>
              (<["project" := project]> ∅))))).
Proof. reflexivity. Qed.

Lemma globals_before_import_names key :
  is_Some (globals_before_import !! key) <-> key ∈ names_before_import.
Proof.
  rewrite <- elem_of_dom, globals_before_import_unfold.
  rewrite !dom_insert_L, dom_empty_L.
  unfold names_before_import. rewrite !elem_of_cons, elem_of_nil.
  rewrite !elem_of_union, !elem_of_singleton, elem_of_empty. tauto.
Qed.

(** The bindings made before the import are bindings of every successful
    load. *)
Lemma globals_before_import_sub m : globals_before_import ⊆ conf_globals m.
Proof.
  rewrite conf_globals_unfold, globals_before_import_unfold.
  do 7 (apply insert_subseteq_r; [reflexivity|]). reflexivity.
Qed.

(** The body run from any initial globals: the import decides the outcome and
    the interpreter; the bindings of the statements that ran are laid over
    the initial globals. *)
Lemma conf_py_run i g0 :
  conf_py (PyState i g0)
  = match import_module "sphinx_rtd_theme" i with
    | (Ok m, i') => (Ok tt, PyState i' (conf_globals m ∪ g0))
    | (Raise e, i') => (Raise e, PyState i' (globals_before_import ∪ g0))
    end.
Proof.
  unfold conf_py, conf_py_stmts. cbn [exec_stmts].
  unfold bind, assign, import_, ret. cbn [st_interp st_globals].
  destruct (import_module "sphinx_rtd_theme" i) as [[m|e] i'];
    cbn [st_interp st_globals].
  - rewrite conf_globals_unfold, <- !insert_union_l.
    by rewrite (left_id_L ∅ (∪)).
  - rewrite globals_before_import_unfold, <- !insert_union_l.
    by rewrite (left_id_L ∅ (∪)).
Qed.

(** X1: the statements of the module bind exactly the thirteen names of
    [conf_names]: run to the end from any initial globals, the body leaves
    each of these names bound and every other name as the initial globals had
    it, bound or not (so it adds no [setup] hook). *)
Theorem conf_py_binds_exactly_conf_names i g0 st :
  conf_py (PyState i g0) = (Ok tt, st) ->
  (forall key, key ∈ conf_names -> is_Some (st_globals st !! key))
  /\ (forall key, key ∉ conf_names -> st_globals st !! key = g0 !! key).
Proof.
  rewrite conf_py_run.
  destruct (import_module "sphinx_rtd_theme" i) as [[m|e] i']; [|discriminate].
  intros [= <-]. cbn [st_globals]. split.
  - intros key Hkey. apply conf_globals_names with (m := m) in Hkey.
    destruct Hkey as [v Hv]. exists v. by apply lookup_union_Some_l.
  - intros key Hkey. apply lookup_union_r.
    apply eq_None_not_Some. by rewrite conf_globals_names.
Qed.

Lemma conf_py_binds_exactly_conf_names_witness :
  let g0 : gmap string value :=
    {[ "__file__" := VStr "docs/source/conf.py" ]} in
  let st := PyState interp_theme_cached (conf_globals rtd_theme ∪ g0) in
  conf_py (PyState interp_with_theme g0) = (Ok tt, st)
  /\ (forall key, key ∈ conf_names -> is_Some (st_globals st !! key))
  /\ (forall key, key ∉ conf_names -> st_globals st !! key = g0 !! key).
Proof.
  intros g0 st.
  assert (Hrun : conf_py (PyState interp_with_theme g0) = (Ok tt, st))
    by reflexivity.
  split; [exact Hrun|].
  exact (conf_py_binds_exactly_conf_names interp_with_theme g0 st Hrun).
Defined.

(** X2: when the body raises, the statements before the import have already
    run.  From any initial globals: the exception is the one the import
    raised and the interpreter is as the failed import left it; the six
    names bound before the import are bound, each to the value a successful
    load gives it; every other name, those the later statements would bind
    included, is as the initial globals had it. *)
Theorem failed_load_keeps_earlier_bindings i g0 e st :
  conf_py (PyState i g0) = (Raise e, st) ->
  import_module "sphinx_rtd_theme" i = (Raise e, st_interp st)
  /\ (forall key m,
        key ∈ names_before_import ->
        is_Some (st_globals st !! key)
        /\ st_globals st !! key = conf_globals m !! key)
  /\ (forall key,
        key ∉ names_before_import -> st_globals st !! key = g0 !! key).
Proof.
  rewrite conf_py_run.
  destruct (import_module "sphinx_rtd_theme" i) as [[m0|e0] i']; [discriminate|].
  intros [= <- <-]. cbn [st_interp st_globals].
  split; [reflexivity|]. split.
  - intros key m Hkey. apply globals_before_import_names in Hkey as [v Hv].
    rewrite (lookup_union_Some_l _ _ _ _ Hv). split; [by exists v|].
    symmetry. by apply (lookup_weaken _ _ _ _ Hv), globals_before_import_sub.
  - intros key Hkey. apply lookup_union_r.
    apply eq_None_not_Some. by rewrite globals_before_import_names.
Qed.

Lemma failed_load_keeps_earlier_bindings_witness :
  let g0 : gmap string value :=
    {[ "__file__" := VStr "docs/source/conf.py" ]} in
  let e := RaisedByImport "ImportError" "cannot import name" in
  let st :=
    PyState (Interp {[ "sphinx" := sphinx_module ]}
                    {[ "sphinx_rtd_theme" := broken_theme_body ]})
            (globals_before_import ∪ g0) in
  conf_py (PyState interp_broken_theme g0) = (Raise e, st)
  /\ import_module "sphinx_rtd_theme" interp_broken_theme
     = (Raise e, st_interp st)
  /\ (forall key m,
        key ∈ names_before_import ->
        is_Some (st_globals st !! key)
        /\ st_globals st !! key = conf_globals m !! key)
  /\ (forall key,
        key ∉ names_before_import -> st_globals st !! key = g0 !! key).
Proof.
  intros g0 e st.
  assert (Hrun : conf_py (PyState interp_broken_theme g0) = (Raise e, st))
    by reflexivity.
  split; [exact Hrun|].
  exact (failed_load_keeps_earlier_bindings interp_broken_theme g0 e st Hrun).
Defined.

(** X3: run in globals that already hold bindings (as Sphinx does, which
    puts [__file__] there first), the module overrides the names it binds and
    leaves every other binding as it was. *)
Theorem conf_py_overrides_initial_globals i g0 m i' :
  import_module "sphinx_rtd_theme" i = (Ok m, i') ->
  conf_py (PyState i g0) = (Ok tt, PyState i' (conf_globals m ∪ g0)).
Proof.
  intros Himp.
  unfold conf_py, conf_py_stmts. cbn [exec_stmts].
  unfold bind, assign, import_, ret. cbn [st_interp st_globals].
  rewrite Himp. cbn [st_interp st_globals].
  rewrite conf_globals_unfold, <- !insert_union_l.
  by rewrite (left_id_L ∅ (∪)).
Qed.

Lemma conf_py_overrides_initial_globals_witness :
  let g0 : gmap string value :=
    {[ "__file__" := VStr "docs/source/conf.py";
       "project" := VStr "overridden" ]} in
  import_module "sphinx_rtd_theme" interp_with_theme
  = (Ok rtd_theme, interp_theme_cached)
  /\ conf_py (PyState interp_with_theme g0)
     = (Ok tt, PyState interp_theme_cached (conf_globals rtd_theme ∪ g0)).
Proof.
  intros g0. split; [reflexivity|].
  apply conf_py_overrides_initial_globals. reflexivity.
Defined.



(** After a successful import the module is in [sys.modules]. *)
Lemma import_module_ok_lookup name i m i' :
  import_module name i = (Ok m, i') ->
  sys_modules i' !! name = Some m.
Proof.
  unfold import_module.
  destruct (sys_modules i !! name) as [m0|] eqn:Hc.
  - by intros [= <- <-].
  - destruct (site_packages i !! name) as [body|]; [|discriminate].
    destruct (body (sys_modules i)) as [[m0|e] cache]; intros [= <- <-].
    cbn [sys_modules]. by rewrite lookup_insert_eq.
Qed.

(** X5: after a successful load the theme that [html_theme] selects is the
    module the file imported: [html_theme] is a string naming an entry of
    [sys.modules], and the namespace binds that same name to that module. *)
Theorem selected_theme_is_imported i i' ns :
  load i = (Ok ns, i') ->
  exists name m,
    ns !! "html_theme" = Some (VStr name)
    /\ sys_modules i' !! name = Some m
    /\ ns !! name = Some (VModule m).
Proof.
  intros H. apply load_ok_inv in H as (m & Himp & ->).
  exists "sphinx_rtd_theme", m. split; [reflexivity|]. split; [|reflexivity].
  by apply import_module_ok_lookup with i.
Qed.

Lemma selected_theme_is_imported_witness :
  load interp_with_theme = (Ok (conf_globals rtd_theme), interp_theme_cached)
  /\ exists name m,
       conf_globals rtd_theme !! "html_theme" = Some (VStr name)
       /\ sys_modules interp_theme_cached !! name = Some m
       /\ conf_globals rtd_theme !! name = Some (VModule m).
Proof.
  split; [reflexivity|].
  apply (selected_theme_is_imported interp_with_theme). reflexivity.
Defined.

(** ** Dict displays *)

Lemma assoc_get_setitem key k v d :
  assoc_get key (dict_setitem k v d)
  = if decide (k = key) then Some v else assoc_get key d.
Proof.
  induction d as [|[k0 w] d IH]; cbn.
  - reflexivity.
  - destruct (decide (k0 = k)) as [->|Hne]; cbn.
    + by destruct (decide (k = key)).
    + destruct (decide (k0 = key)) as [->|].
      * by rewrite decide_False by congruence.
      * exact IH.
Qed.

Lemma assoc_get_snoc key k v d :
  assoc_get key (d ++ [(k, v)])
  = match assoc_get key d with
    | Some w => Some w
    | None => if decide (k = key) then Some v else None
    end.
Proof.
  induction d as [|[k0 w] d IH]; cbn; [reflexivity|].
  by destruct (decide (k0 = key)).
Qed.

Lemma dict_setitem_fresh k v d :
  k ∉ d.*1 -> dict_setitem k v d = d ++ [(k, v)].
Proof.
  induction d as [|[k0 w] d IH]; cbn; [reflexivity|].
  rewrite not_elem_of_cons. intros [Hne Hnin].
  rewrite decide_False by congruence. by rewrite IH.
Qed.

(** X6: a dict display whose keys are pairwise distinct evaluates to exactly
    the items written, in the order written: no item is dropped or moved. *)
Theorem dict_display_distinct_keys items :
  NoDup items.*1 -> dict_display items = VDict items.
Proof.
  intros Hnd. unfold dict_display. f_equal.
  change items with ([] ++ items) at 2.
  change items with ([] ++ items) in Hnd.
  generalize dependent (@nil (string * value)).
  induction items as [|[k v] items IH]; intros acc Hnd; cbn [fold_left].
  - by rewrite app_nil_r.
  - rewrite IH.
    + rewrite dict_setitem_fresh; [by rewrite <- app_assoc|].
      rewrite fmap_app in Hnd. apply NoDup_app in Hnd as (_ & Hdisj & _).
      intros Hin. apply (Hdisj _ Hin). cbn. apply list_elem_of_here.
    + rewrite dict_setitem_fresh.
      * by rewrite <- app_assoc.
      * rewrite fmap_app in Hnd. apply NoDup_app in Hnd as (_ & Hdisj & _).
        intros Hin. apply (Hdisj _ Hin). cbn. apply list_elem_of_here.
Qed.

Lemma dict_display_distinct_keys_witness :
  let items :=
    [ ("display_github", VBool true);
      ("github_user", VStr "cmelnu");
      ("github_repo", VStr "compi");
      ("github_version", VStr "main");
      ("conf_py_path", VStr "/docs/source/") ] in
  NoDup items.*1 /\ html_context = VDict items.
Proof.
  intros items.
  assert (Hnd : NoDup items.*1)
    by (apply (bool_decide_unpack _); vm_compute; exact I).
  split; [exact Hnd|].
  exact (dict_display_distinct_keys items Hnd).
Defined.

(** X7: looking a key up in a dict display gives the value of the last item
    written with that key, and nothing when no item has that key. *)
Theorem dict_display_get_last items key :
  dict_get (dict_display items) key = assoc_get key (reverse items).
Proof.
  unfold dict_display. cbn [dict_get].
  assert (Hgen : forall acc,
    assoc_get key
      (fold_left (fun d kv => dict_setitem kv.1 kv.2 d) items acc)
    = match assoc_get key (reverse items) with
      | Some w => Some w
      | None => assoc_get key acc
      end).
  { induction items as [|[k v] items IH]; intros acc; cbn [fold_left].
    - reflexivity.
    - rewrite IH, reverse_cons, assoc_get_snoc, assoc_get_setitem. cbn.
      destruct (assoc_get key (reverse items)); [reflexivity|].
      by destruct (decide (k = key)). }
  rewrite Hgen. by destruct (assoc_get key (reverse items)).
Qed.

(** ** The order of the statements *)

(** Bindings to distinct names can be made in any order. *)
Lemma fold_insert_perm (l l' : list (string * value)) :
  l ≡ₚ l' ->
  NoDup l.*1 ->
  forall g : gmap string value,
    fold_left (fun g kv => <[kv.1 := kv.2]> g) l g
    = fold_left (fun g kv => <[kv.1 := kv.2]> g) l' g.
Proof.
  induction 1 as [|x l l' Hperm IH|x y l|l l' l'' H1 IH1 H2 IH2];
    intros Hnd g; cbn [fold_left].
  - reflexivity.
  - apply IH. cbn in Hnd. by apply NoDup_cons in Hnd as [_ ?].
  - f_equal. apply insert_insert_ne.
    cbn in Hnd. apply NoDup_cons in Hnd as [Hnin _].
    intros Heq. apply Hnin. rewrite Heq. apply list_elem_of_here.
  - rewrite IH1 by done. apply IH2. by rewrite <- H1.
Qed.

(** Once the module is cached, a body whose imports all name it runs to the
    end, changes nothing in the interpreter and makes its bindings in turn. *)
Lemma exec_body_cached name m body : forall i g,
  sys_modules i !! name = Some m ->
  Forall (fun s => is_import s = true -> stmt_name s = name) body ->
  exec_stmts (run_stmt <$> body) (PyState i g)
  = (Ok tt,
     PyState i (fold_left (fun g kv => <[kv.1 := kv.2]> g)
                  (stmt_binding m <$> body) g)).
Proof.
  induction body as [|s body IH]; intros i g Hc Himps; [reflexivity|].
  apply Forall_cons in Himps as [Hs Himps].
  cbn [fmap list_fmap exec_stmts]. unfold bind.
  destruct s as [k v|k]; cbn [run_stmt].
  - unfold assign. cbn [st_interp st_globals]. by rewrite IH.
  - rewrite <- (Hs eq_refl) in Hc. cbn [stmt_name] in Hc.
    unfold import_, import_module. cbn [st_interp st_globals].
    rewrite Hc. rewrite IH; [done| |done].
    by rewrite <- (Hs eq_refl).
Qed.

(** A body that contains the import, and imports nothing else, loads as its
    import decides, with the bindings of its statements made in turn. *)
Lemma exec_body_with_import name body : forall i g,
  Import name ∈ body ->
  Forall (fun s => is_import s = true -> stmt_name s = name) body ->
  match exec_stmts (run_stmt <$> body) (PyState i g) with
  | (Ok _, st) => (Ok (st_globals st), st_interp st)
  | (Raise e, st) => (Raise e, st_interp st)
  end
  = match import_module name i with
    | (Ok m, i') =>
        (Ok (fold_left (fun g kv => <[kv.1 := kv.2]> g)
               (stmt_binding m <$> body) g), i')
    | (Raise e, i') => (Raise e, i')
    end.
Proof.
  induction body as [|s body IH]; intros i g Hin Himps.
  - by apply elem_of_nil in Hin.
  - apply Forall_cons in Himps as [Hs Himps].
    cbn [fmap list_fmap exec_stmts]. unfold bind.
    destruct s as [k v|k]; cbn [run_stmt].
    + unfold assign. cbn [st_interp st_globals].
      apply elem_of_cons in Hin as [[=]|Hin].
      rewrite (IH _ _ Hin Himps).
      by destruct (import_module name i) as [[m|e] i'].
    + pose proof (Hs eq_refl) as Hk. cbn [stmt_name] in Hk. subst k.
      unfold import_. cbn [st_interp st_globals].
      destruct (import_module name i) as [[m|e] i'] eqn:Himp; [|done].
      apply import_module_ok_lookup in Himp.
      by rewrite (exec_body_cached name m body i' _ Himp Himps).
Qed.

(** X8: the statements of the module do not depend on one another: a body
    made of the same thirteen statements in any other order loads to the same
    result, in every interpreter. *)
Theorem statement_order_irrelevant body i :
  body ≡ₚ conf_py_syntax ->
  load_body body i = load i.
Proof.
  intros Hperm.
  assert (Himps : Forall (fun s => is_import s = true ->
                                   stmt_name s = "sphinx_rtd_theme")
                    conf_py_syntax).
  { unfold conf_py_syntax. repeat constructor; by intros [=]. }
  assert (Hin : Import "sphinx_rtd_theme" ∈ conf_py_syntax).
  { unfold conf_py_syntax. do 6 apply list_elem_of_further.
    apply list_elem_of_here. }
  change (load i) with (load_body conf_py_syntax i). unfold load_body.
  rewrite (exec_body_with_import "sphinx_rtd_theme" conf_py_syntax)
    by done.
  rewrite (exec_body_with_import "sphinx_rtd_theme" body);
    [| by rewrite Hperm | by rewrite Hperm].
  destruct (import_module "sphinx_rtd_theme" i) as [[m|e] i']; [|done].
  f_equal. f_equal. symmetry. apply fold_insert_perm.
  - by rewrite Hperm.
  - apply (bool_decide_unpack _). vm_compute. exact I.
Qed.

Lemma statement_order_irrelevant_witness :
  reverse conf_py_syntax ≡ₚ conf_py_syntax
  /\ load_body (reverse conf_py_syntax) interp_with_theme
     = load interp_with_theme.
Proof.
  assert (Hperm : reverse conf_py_syntax ≡ₚ conf_py_syntax)
    by apply reverse_Permutation.
  split; [exact Hperm|].
  exact (statement_order_irrelevant _ interp_with_theme Hperm).
Defined.
